(** * LinkedIn post reviewer: the validation tools

    A shallow embedding of
    [linkedin_post_agent/subagents/post_reviewer/tools.py], the four tools
    that [linkedin_post_agent/subagents/post_reviewer/agent.py] hands to the
    reviewer agent. The agent itself is a language model driven by an
    instruction text: which tools it calls, and in what order, is not fixed
    by any code and is not modelled here.

    - A Python [str] holding a post is a list of Unicode code points
      ([len] counts code points, iteration yields code points).
    - The dictionaries returned by the tools and the session state are
      finite maps from (ASCII) keys to Python values.
    - A tool mutates its [tool_context] and prints to the console; both are
      threaded through a small state monad. *)

From Stdlib Require Import ZArith NArith String Ascii List Bool Lia.
From stdpp Require Import base gmap strings list fin_maps pretty.

Local Open Scope Z_scope.

(** ** Python values *)

(** The text of a post: a sequence of code points. *)
Abbreviation str := (list N).

(** An ASCII literal of the source, as a Python [str]. *)
Definition lit (s : string) : str :=
  List.map N_of_ascii (list_ascii_of_string s).

(** [len(text)] *)
Definition len (text : str) : Z := Z.of_nat (length text).

(** The values stored in the dictionaries of this module: strings built
    from ASCII literals and decimal numbers, integers, and lists of
    strings. *)
Inductive value : Type :=
| VStr (s : string)
| VInt (n : Z)
| VList (l : list string).

#[global] Instance value_eq_dec : EqDecision value.
Proof. solve_decision. Defined.

(** [Dict[str, Any]] *)
Abbreviation dict := (gmap string value).

(** The line feed of the [print] banners. *)
Definition LF : string := String "010"%char EmptyString.

(** ** Substring test: [needle in haystack] on [str] *)

Fixpoint starts_with (p s : str) : bool :=
  match p, s with
  | [], _ => true
  | _ :: _, [] => false
  | a :: p', b :: s' => (a =? b)%N && starts_with p' s'
  end.

Fixpoint contains (p s : str) : bool :=
  starts_with p s ||
  match s with
  | [] => false
  | _ :: s' => contains p s'
  end.

(** What [contains] decides: [p] occurs in [s] as a contiguous run. *)
Definition is_substring (p s : str) : Prop :=
  exists l r, s = l ++ p ++ r.

(** [any(...)] over a list of booleans. *)
Definition any (l : list bool) : bool := existsb (fun b => b) l.

(** Truth value of a [str]: non-empty. *)
Definition str_truthy (s : str) : bool :=
  match s with [] => false | _ :: _ => true end.

(** Truth value of a list: non-empty. *)
Definition list_truthy {A} (l : list A) : bool :=
  match l with [] => false | _ :: _ => true end.

(** Iterating a [str] yields its one-character strings. *)
Definition chars (s : str) : list str := List.map (fun c => [c]) s.

(** ** The tool context and the tool monad *)

(** [tool_context.actions]: only the [escalate] flag is used here. *)
Record EventActions := { escalate : bool }.

(** [tool_context]: the session state dictionary and the actions. *)
Record ToolContext := {
  state : gmap string value;
  actions : EventActions
}.

(** What a tool can touch: its context and the console. *)
Record World := {
  tool_context : ToolContext;
  stdout : list string
}.

Definition Tool (A : Type) : Type := World -> A * World.

Definition ret {A} (a : A) : Tool A := fun w => (a, w).

Definition bind {A B} (m : Tool A) (k : A -> Tool B) : Tool B :=
  fun w => let (a, w') := m w in k a w'.

Declare Scope tool_scope.
Delimit Scope tool_scope with tool.
Notation "x <- m ;; k" := (bind m (fun x => k))
  (at level 100, m at next level, k at level 200, right associativity) : tool_scope.
Notation "m ;; k" := (bind m (fun _ => k))
  (at level 100, k at level 200, right associativity) : tool_scope.

(** [print(s)] *)
Definition print (s : string) : Tool unit := fun w =>
  (tt, {| tool_context := tool_context w; stdout := stdout w ++ [s] |}).

(** [tool_context.state[k] = v] *)
Definition state_set (k : string) (v : value) : Tool unit := fun w =>
  (tt, {| tool_context :=
            {| state := <[k := v]> (state (tool_context w));
               actions := actions (tool_context w) |};
          stdout := stdout w |}).

(** [tool_context.actions.escalate = b] *)
Definition escalate_set (b : bool) : Tool unit := fun w =>
  (tt, {| tool_context :=
            {| state := state (tool_context w);
               actions := {| escalate := b |} |};
          stdout := stdout w |}).

(** The value a tool returns, and the context and session state it
    leaves. *)
Definition returned {A} (m : Tool A) (w : World) : A := fst (m w).
Definition context_after {A} (m : Tool A) (w : World) : ToolContext :=
  tool_context (snd (m w)).
Definition state_after {A} (m : Tool A) (w : World) : gmap string value :=
  state (context_after m w).

(** ** tools.py *)

Local Open Scope tool_scope.

Definition count_characters (text : str) : Tool dict :=
  let char_count := len text in
  let MIN_LENGTH := 1000 in
  let MAX_LENGTH := 1500 in
  print (LF +:+ "----------- TOOL DEBUG -----------") ;;
  print ("Checking text length: " +:+ pretty char_count +:+ " characters") ;;
  print ("----------------------------------" +:+ LF) ;;
  if char_count <? MIN_LENGTH then
    let chars_needed := MIN_LENGTH - char_count in
    state_set "review_status" (VStr "fail") ;;
    ret (<["result" := VStr "fail"]>
         (<["char_count" := VInt char_count]>
         (<["chars_needed" := VInt chars_needed]>
         (<["message" := VStr ("Post is too short. Add " +:+ pretty chars_needed
                 +:+ " more characters to reach minimum length of "
                 +:+ pretty MIN_LENGTH +:+ ".")]> ∅))))
  else if char_count >? MAX_LENGTH then
    let chars_to_remove := char_count - MAX_LENGTH in
    state_set "review_status" (VStr "fail") ;;
    ret (<["result" := VStr "fail"]>
         (<["char_count" := VInt char_count]>
         (<["chars_to_remove" := VInt chars_to_remove]>
         (<["message" := VStr ("Post is too long. Remove " +:+ pretty chars_to_remove
                 +:+ " characters to meet maximum length of "
                 +:+ pretty MAX_LENGTH +:+ ".")]> ∅))))
  else
    state_set "review_status" (VStr "pass") ;;
    ret (<["result" := VStr "pass"]>
         (<["char_count" := VInt char_count]>
         (<["message" := VStr ("Post length is good (" +:+ pretty char_count
                 +:+ " characters).")]> ∅))).


(** The string literal of the emoji test, code point by code point, in
    the order of the source (it holds the variation selector U+FE0F twice
    and U+1FAE0 twice). *)
Definition EMOJI : str :=
  [
   0x1F600; 0x1F603; 0x1F604; 0x1F601; 0x1F606; 0x1F605; 0x1F602; 0x1F923;
   0x1F972; 0x1F60A; 0x1F607; 0x1F642; 0x1F643; 0x1F609; 0x1F60C; 0x1F60D;
   0x1F970; 0x1F618; 0x1F617; 0x1F619; 0x1F61A; 0x1F60B; 0x1F61B; 0x1F61D;
   0x1F61C; 0x1F92A; 0x1F928; 0x1F9D0; 0x1F913; 0x1F60E; 0x1F978; 0x1F929;
   0x1F973; 0x1F60F; 0x1F612; 0x1F61E; 0x1F614; 0x1F61F; 0x1F615; 0x1F641;
   0x2639; 0xFE0F; 0x1F623; 0x1F616; 0x1F62B; 0x1F629; 0x1F97A; 0x1F622;
   0x1F62D; 0x1F624; 0x1F620; 0x1F621; 0x1F92C; 0x1F92F; 0x1F633; 0x1F975;
   0x1F976; 0x1F631; 0x1F628; 0x1F630; 0x1F625; 0x1F613; 0x1F917; 0x1F914;
   0x1FAE3; 0x1F92B; 0x1FAE0; 0x1F925; 0x1F636; 0x1FAE5; 0x1F610; 0x1F611;
   0x1FAE8; 0x1F62C; 0x1FAE0; 0x1F644; 0x1F62F; 0x1F626; 0x1F627; 0x1F62E;
   0x1F632; 0x1F971; 0x1F634; 0x1F924; 0x1F62A; 0x1F635; 0x1F4AB; 0x1F910;
   0x1F974; 0x1F922; 0x1F92E; 0x1F927; 0x1F637; 0x1F912; 0x1F915; 0x1F911;
   0x1F920; 0x1F608; 0x1F47F; 0x1F479; 0x1F47A; 0x1F921; 0x1F4A9; 0x1F47B;
   0x1F480; 0x2620; 0xFE0F; 0x1F47D; 0x1F47E; 0x1F916; 0x1F383; 0x1F63A;
   0x1F638; 0x1F639; 0x1F63B; 0x1F63C; 0x1F63D; 0x1F640; 0x1F63F; 0x1F63E
  ]%N.

Definition adk_capabilities : list string :=
  [ "basic agent implementation";
    "tool integration";
    "LiteLLM";
    "sessions and memory";
    "persistent storage";
    "multi-agent orchestration";
    "stateful multi-agent systems";
    "callback systems";
    "sequential agents";
    "parallel agents";
    "loop agents" ].

Definition call_to_action_keywords : list string :=
  [ "connect with me"; "follow me"; "learn more"; "get in touch" ].

Definition practical_application_keywords : list string :=
  [ "real-world"; "practical"; "applications"; "use cases" ].

Definition enthusiasm_keywords : list string :=
  [ "excited"; "thrilled"; "love"; "amazing"; "fantastic"; "great" ].

Definition informal_keywords : list string :=
  [ "lol"; "lmao"; "btw"; "ikr"; "omg"; "wtf" ].

(** [lst.append(x)] on the local list of a tool. *)
Definition append (l : list string) (x : string) : list string := l ++ [x].

Section Validators.

(** [str.lower]: the interpreter's Unicode lower-casing, on code points. *)
Variable lower : str -> str.

(** [any(keyword in text.lower() for keyword in keywords)] *)
Definition any_keyword_in_lower (keywords : list string) (text : str) : bool :=
  any (List.map (fun keyword => contains (lit keyword) (lower text)) keywords).

Definition check_content_elements (text : str) : Tool dict :=
  let missing_elements := [] in
  let missing_elements :=
    if negb (contains (lit "@aiwithbrandon") text)
    then append missing_elements "Mentions @aiwithbrandon"
    else missing_elements in
  let found_capabilities :=
    List.filter (fun cap => contains (lower (lit cap)) (lower text))
                adk_capabilities in
  let missing_elements :=
    if Z.of_nat (length found_capabilities) <? 4
    then append missing_elements "Lists at least 4 ADK capabilities"
    else missing_elements in
  let missing_elements :=
    if negb (any_keyword_in_lower call_to_action_keywords text)
    then append missing_elements "Has a clear call-to-action"
    else missing_elements in
  let missing_elements :=
    if negb (any_keyword_in_lower practical_application_keywords text)
    then append missing_elements "Includes practical applications"
    else missing_elements in
  let missing_elements :=
    if negb (any_keyword_in_lower enthusiasm_keywords text)
    then append missing_elements "Shows genuine enthusiasm"
    else missing_elements in
  if list_truthy missing_elements then
    state_set "review_status" (VStr "fail") ;;
    ret (<["result" := VStr "fail"]>
         (<["missing_elements" := VList missing_elements]>
         (<["message" :=
             VStr "The post is missing some required content elements."]> ∅)))
  else
    ret (<["result" := VStr "pass"]>
         (<["missing_elements" := VList []]>
         (<["message" :=
             VStr "All required content elements are present."]> ∅))).

Definition check_style_elements (text : str) : Tool dict :=
  let style_issues := [] in
  let style_issues :=
    if any (List.map str_truthy
              (List.filter (fun char => contains char EMOJI) (chars text)))
    then append style_issues "NO emojis"
    else style_issues in
  let style_issues :=
    if contains (lit "#") text
    then append style_issues "NO hashtags"
    else style_issues in
  let style_issues :=
    if any_keyword_in_lower informal_keywords text
    then append style_issues "Professional tone (avoid informal language)"
    else style_issues in
  if list_truthy style_issues then
    state_set "review_status" (VStr "fail") ;;
    ret (<["result" := VStr "fail"]>
         (<["issues" := VList style_issues]>
         (<["message" := VStr "The post has some style issues."]> ∅)))
  else
    ret (<["result" := VStr "pass"]>
         (<["issues" := VList []]>
         (<["message" := VStr "All style requirements are met."]> ∅))).

End Validators.

(** Lower-casing of the letters A-Z, every other code point kept: what
    [str.lower] does on ASCII text. Used to run the validators on concrete
    posts. *)
Definition ascii_lower (s : str) : str :=
  List.map (fun c => if (65 <=? c)%N && (c <=? 90)%N then (c + 32)%N else c) s.

(** ** agent.py *)



(** ** Vocabulary of the statements *)

(** A phrase occurs in the text as a case-insensitive substring: its
    lower-casing occurs in the lower-cased text. *)
Definition occurs_ci (lower : str -> str) (phrase : string) (text : str) : Prop :=
  is_substring (lower (lit phrase)) (lower text).

(** Some phrase of the list occurs case-insensitively. *)
Definition some_occurs_ci (lower : str -> str) (phrases : list string)
    (text : str) : Prop :=
  exists phrase, phrase ∈ phrases /\ occurs_ci lower phrase text.

(** At least [n] distinct phrases of the capability vocabulary occur
    case-insensitively. *)
Definition at_least_capabilities (lower : str -> str) (n : nat) (text : str) : Prop :=
  exists found : list string,
    NoDup found /\ length found = n /\
    forall cap, cap ∈ found -> cap ∈ adk_capabilities /\ occurs_ci lower cap text.

(** The text holds a character of the emoji literal. *)
Definition has_emoji (text : str) : Prop :=
  exists c, c ∈ text /\ c ∈ EMOJI.

(** A text of plain ASCII: every code point is below 128. *)
Definition is_ascii (s : str) : Prop := Forall (fun c => (c < 128)%N) s.

(** [str.lower] on ASCII text turns A-Z into a-z and nothing else. *)
Definition lower_on_ascii (lower : str -> str) : Prop :=
  forall s, is_ascii s -> lower s = ascii_lower s.

(** The shape of a validator's result: a result tag 'pass' or 'fail', a
    message, and, where the validator reports details, a list of names
    under [missing_elements] or [issues]. *)
Definition well_formed (r : dict) : Prop :=
  (r !! "result" = Some (VStr "pass") \/ r !! "result" = Some (VStr "fail")) /\
  (exists message, r !! "message" = Some (VStr message)) /\
  (r !! "missing_elements" = None \/
   exists names, r !! "missing_elements" = Some (VList names)) /\
  (r !! "issues" = None \/ exists names, r !! "issues" = Some (VList names)).

(** [tool_context.state[k] = v] as a change of the context alone. *)
Definition with_state (k : string) (v : value) (ctx : ToolContext) : ToolContext :=
  {| state := <[k := v]> (state ctx); actions := actions ctx |}.

(** The dictionary a tool returns is a function of the text alone. *)
Definition depends_on_text_only (tool : str -> Tool dict) : Prop :=
  forall text w w', returned (tool text) w = returned (tool text) w'.

(** Running a tool again on the same text gives the same dictionary and
    leaves the context as the first run left it. *)
Definition idempotent (tool : str -> Tool dict) : Prop :=
  forall text w,
    let w1 := snd (tool text w) in
    returned (tool text) w1 = returned (tool text) w /\
    context_after (tool text) w1 = tool_context w1.

(** A call on one text does not change what a later call on another text
    returns. *)
Definition no_leak_between_calls (tool : str -> Tool dict) : Prop :=
  forall text text' w,
    returned (tool text) (snd (tool text' w)) = returned (tool text) w.

(** A literal written in lower-case ASCII. *)
Definition lowercase_literal (phrase : string) : Prop :=
  is_ascii (lit phrase) /\ ascii_lower (lit phrase) = lit phrase.

(** A fresh session: empty state, signal lowered, nothing printed. *)
Definition w0 : World :=
  {| tool_context := {| state := ∅; actions := {| escalate := false |} |};
     stdout := [] |}.

(** ** Reading the returned dictionaries *)

(** [result["missing_elements"]], empty when the key is absent. *)
Definition missing_elements_of (r : dict) : list string :=
  match r !! "missing_elements" with
  | Some (VList names) => names
  | _ => []
  end.

(** [result["issues"]], empty when the key is absent. *)
Definition issues_of (r : dict) : list string :=
  match r !! "issues" with
  | Some (VList names) => names
  | _ => []
  end.

(** [result["result"] == "pass"] and [result["result"] == "fail"]. *)
Definition passes (r : dict) : Prop := r !! "result" = Some (VStr "pass").
Definition fails (r : dict) : Prop := r !! "result" = Some (VStr "fail").

(** One tool run after another on the same context, the second result
    kept. *)
Definition and_then {A B} (first : Tool A) (second : Tool B) : Tool B :=
  bind first (fun _ => second).

(** ** Posts to run the validators on *)

(** A post of 1200 characters with the mention, five capabilities, a
    call to action, a practical application and enthusiasm, padded with
    dots. *)
Definition good_post : str :=
  lit ("Excited to share what @aiwithbrandon covers: tool integration, "
       +:+ "LiteLLM, sessions and memory, Parallel Agents and loop agents. "
       +:+ "Real-world examples throughout. Learn more on the channel.")
  ++ repeat (N_of_ascii ".") 1016.

(** A post of 1100 characters without the mention and without enthusiasm:
    the length passes, the content check lists the two. *)
Definition two_missing_post : str :=
  lit ("This course covers tool integration, LiteLLM, sessions and memory "
       +:+ "and loop agents, with practical use cases. Follow me for more.")
  ++ repeat (N_of_ascii ".") 972.

(** * Proofs *)

(** ** The substring test *)

Lemma starts_with_spec (p s : str) :
  starts_with p s = true <-> exists r, s = p ++ r.
Proof.
  revert s. induction p as [|a p IH]; intros s; simpl.
  - split; [intros _; by exists s | done].
  - destruct s as [|b s].
    + split; [done | intros [r Hr]; discriminate].
    + rewrite andb_true_iff, N.eqb_eq, IH. split.
      * intros [-> [r ->]]. by exists r.
      * intros [r Hr]. injection Hr as -> ->. eauto.
Qed.

Lemma contains_spec (p s : str) :
  contains p s = true <-> is_substring p s.
Proof.
  unfold is_substring. induction s as [|b s IH].
  - simpl. rewrite orb_false_r, starts_with_spec. split.
    + intros [r Hr]. by exists [], r.
    + intros (l & r & Hlr). destruct l; [by exists r |discriminate].
  - cbn [contains]. rewrite orb_true_iff, starts_with_spec, IH. split.
    + intros [[r Hr] | (l & r & Hlr)].
      * by exists [], r.
      * exists (b :: l), r. by rewrite Hlr.
    + intros (l & r & Hlr). destruct l as [|b' l].
      * left. by exists r.
      * right. injection Hlr as -> ->. by exists l, r.
Qed.

Lemma contains_false (p s : str) :
  contains p s = false <-> ~ is_substring p s.
Proof. rewrite <- contains_spec. by destruct (contains p s). Qed.

(** A one-character needle: membership. *)
Lemma contains_char (c : N) (s : str) :
  contains [c] s = true <-> c ∈ s.
Proof.
  rewrite contains_spec. unfold is_substring. split.
  - intros (l & r & ->). set_solver.
  - intros (l & r & ->)%list_elem_of_split. by exists l, r.
Qed.

Lemma any_true (l : list bool) : any l = true <-> true ∈ l.
Proof.
  unfold any. rewrite existsb_exists. split.
  - intros (b & Hb%list_elem_of_In & ->). done.
  - intros Hin%list_elem_of_In. by exists true.
Qed.

(** ** The length check *)

(** Peel the monad off a tool applied to a world. *)
Ltac run_tool :=
  unfold returned, state_after, context_after, bind, print, state_set,
    escalate_set, ret; cbn [fst snd tool_context state actions stdout escalate].

(** Read a field of a dictionary literal. *)
Ltac read_field :=
  repeat first
    [ rewrite lookup_insert_eq
    | rewrite lookup_insert_ne by discriminate
    | rewrite lookup_empty ].

(** C1. For a text of length L, [count_characters] returns result 'pass'
    exactly when 1000 <= L <= 1500; below 1000 it returns 'fail' with
    chars_needed = 1000 - L, above 1500 it returns 'fail' with
    chars_to_remove = L - 1500; char_count is L in every case. *)
Theorem count_characters_length_check (text : str) (w : World) :
  let L := len text in
  let r := returned (count_characters text) w in
  (r !! "result" = Some (VStr "pass") <-> 1000 <= L <= 1500) /\
  (L < 1000 ->
     r !! "result" = Some (VStr "fail") /\
     r !! "chars_needed" = Some (VInt (1000 - L))) /\
  (L > 1500 ->
     r !! "result" = Some (VStr "fail") /\
     r !! "chars_to_remove" = Some (VInt (L - 1500))) /\
  r !! "char_count" = Some (VInt L).
Proof.
  intros L r. subst r. unfold count_characters. fold L. run_tool.
  destruct (L <? 1000) eqn:Hmin; [|destruct (L >? 1500) eqn:Hmax];
    run_tool; read_field.
  - apply Z.ltb_lt in Hmin. repeat split; try done; try lia.
  - apply Z.ltb_ge in Hmin. apply Z.gtb_lt in Hmax.
    repeat split; try done; try lia.
  - apply Z.ltb_ge in Hmin. rewrite Z.gtb_ltb in Hmax. apply Z.ltb_ge in Hmax.
    repeat split; try done; try lia.
Qed.

(** ** Keyword tests *)

Lemma any_keyword_in_lower_spec lower (keywords : list string) (text : str) :
  any_keyword_in_lower lower keywords text = true <->
  exists keyword, keyword ∈ keywords /\ is_substring (lit keyword) (lower text).
Proof.
  unfold any_keyword_in_lower. rewrite any_true, list_elem_of_In, in_map_iff.
  split.
  - intros (kw & Hc & Hin). exists kw. by rewrite list_elem_of_In, <- contains_spec.
  - intros (kw & Hin & Hc). exists kw. by rewrite <- list_elem_of_In, contains_spec.
Qed.

Lemma lowercase_literals_call_to_action :
  Forall lowercase_literal call_to_action_keywords.
Proof. repeat constructor. Qed.

Lemma lowercase_literals_practical :
  Forall lowercase_literal practical_application_keywords.
Proof. repeat constructor. Qed.

Lemma lowercase_literals_enthusiasm :
  Forall lowercase_literal enthusiasm_keywords.
Proof. repeat constructor. Qed.

Lemma lowercase_literals_informal :
  Forall lowercase_literal informal_keywords.
Proof. repeat constructor. Qed.

(** On a list of lower-case literals the test, which does not lower-case
    the keywords, is the case-insensitive one. *)
Lemma any_keyword_in_lower_ci lower (keywords : list string) (text : str) :
  lower_on_ascii lower ->
  Forall lowercase_literal keywords ->
  any_keyword_in_lower lower keywords text = true <->
  some_occurs_ci lower keywords text.
Proof.
  intros Hlower Hkw. rewrite any_keyword_in_lower_spec.
  unfold some_occurs_ci, occurs_ci.
  rewrite Forall_forall in Hkw.
  split; intros (kw & Hin & Hocc); exists kw; split; try done;
    destruct (Hkw kw Hin) as [Hascii Hlow];
    [rewrite (Hlower _ Hascii), Hlow | rewrite (Hlower _ Hascii), Hlow in Hocc];
    done.
Qed.

(** Counting the elements of a duplicate-free list that pass a test. *)
Lemma filter_count_ge {A} (P : A -> bool) (l : list A) (n : nat) :
  NoDup l ->
  (n <= length (List.filter P l))%nat <->
  exists found, NoDup found /\ length found = n /\
    forall x, x ∈ found -> x ∈ l /\ P x = true.
Proof.
  intros Hnd. split.
  - intros Hn. exists (take n (List.filter P l)). split; [|split].
    + apply (sublist_NoDup _ (List.filter P l)); [|apply sublist_take].
      by apply NoDup_ListNoDup, List.NoDup_filter, NoDup_ListNoDup.
    + rewrite length_take. lia.
    + intros x Hx.
      assert (x ∈ List.filter P l) as Hin
        by (by apply (subseteq_take n)).
      apply list_elem_of_In, filter_In in Hin.
      by rewrite list_elem_of_In.
  - intros (found & Hndf & <- & Hall).
    apply submseteq_length, NoDup_submseteq; [done|].
    intros x Hx. rewrite list_elem_of_In. apply filter_In.
    rewrite <- list_elem_of_In. by apply Hall.
Qed.

Lemma adk_capabilities_NoDup : NoDup adk_capabilities.
Proof. apply (bool_decide_unpack _). by vm_compute. Qed.

Lemma found_capabilities_few lower (text : str) :
  (Z.of_nat (length (List.filter
      (fun cap => contains (lower (lit cap)) (lower text)) adk_capabilities)) <? 4)
    = true <->
  ~ at_least_capabilities lower 4 text.
Proof.
  rewrite Z.ltb_lt. unfold at_least_capabilities, occurs_ci.
  pose proof (filter_count_ge
    (fun cap => contains (lower (lit cap)) (lower text))
    adk_capabilities 4 adk_capabilities_NoDup) as Hcount.
  setoid_rewrite contains_spec in Hcount.
  rewrite <- Hcount. lia.
Qed.

(** ** The content check *)

Section ContentCheck.

Variable lower : str -> str.
Hypothesis lower_ascii : lower_on_ascii lower.

(** C2. [check_content_elements] returns result 'fail' exactly when the
    mention token is absent, or fewer than 4 capability phrases occur
    case-insensitively, or no call-to-action phrase occurs, or no
    practical-application phrase occurs, or no enthusiasm phrase occurs;
    missing_elements lists exactly the named requirements that fail, each
    once, and is empty on pass. *)
Theorem check_content_elements_missing (text : str) (w : World) :
  let r := returned (check_content_elements lower text) w in
  let no_mention := ~ is_substring (lit "@aiwithbrandon") text in
  let few_capabilities := ~ at_least_capabilities lower 4 text in
  let no_call_to_action :=
    ~ some_occurs_ci lower call_to_action_keywords text in
  let no_practical :=
    ~ some_occurs_ci lower practical_application_keywords text in
  let no_enthusiasm := ~ some_occurs_ci lower enthusiasm_keywords text in
  (r !! "result" = Some (VStr "fail") <->
     no_mention \/ few_capabilities \/ no_call_to_action \/
     no_practical \/ no_enthusiasm) /\
  (r !! "result" = Some (VStr "fail") \/ r !! "result" = Some (VStr "pass")) /\
  exists missing_elements,
    r !! "missing_elements" = Some (VList missing_elements) /\
    NoDup missing_elements /\
    (forall name, name ∈ missing_elements <->
       name = "Mentions @aiwithbrandon" /\ no_mention \/
       name = "Lists at least 4 ADK capabilities" /\ few_capabilities \/
       name = "Has a clear call-to-action" /\ no_call_to_action \/
       name = "Includes practical applications" /\ no_practical \/
       name = "Shows genuine enthusiasm" /\ no_enthusiasm) /\
    (r !! "result" = Some (VStr "pass") -> missing_elements = []).
Proof.
  intros r no_mention few_capabilities no_call_to_action no_practical
    no_enthusiasm.
  pose proof (contains_spec (lit "@aiwithbrandon") text) as H1.
  pose proof (found_capabilities_few lower text) as H2.
  pose proof (any_keyword_in_lower_ci lower _ text lower_ascii
                lowercase_literals_call_to_action) as H3.
  pose proof (any_keyword_in_lower_ci lower _ text lower_ascii
                lowercase_literals_practical) as H4.
  pose proof (any_keyword_in_lower_ci lower _ text lower_ascii
                lowercase_literals_enthusiasm) as H5.
  subst r. unfold check_content_elements.
  fold no_mention in H1.
  set (b1 := contains (lit "@aiwithbrandon") text) in *.
  set (b2 := Z.of_nat _ <? 4) in *.
  set (b3 := any_keyword_in_lower lower call_to_action_keywords text) in *.
  set (b4 := any_keyword_in_lower lower practical_application_keywords text) in *.
  set (b5 := any_keyword_in_lower lower enthusiasm_keywords text) in *.
  assert (no_mention <-> b1 = false) as M1
    by (subst no_mention; destruct b1; intuition congruence).
  assert (few_capabilities <-> b2 = true) as M2 by (by symmetry).
  assert (no_call_to_action <-> b3 = false) as M3
    by (subst no_call_to_action; destruct b3; intuition congruence).
  assert (no_practical <-> b4 = false) as M4
    by (subst no_practical; destruct b4; intuition congruence).
  assert (no_enthusiasm <-> b5 = false) as M5
    by (subst no_enthusiasm; destruct b5; intuition congruence).
  clearbody b1 b2 b3 b4 b5 no_mention few_capabilities no_call_to_action
    no_practical no_enthusiasm.
  clear H1 H2 H3 H4 H5.
  rewrite M1, M2, M3, M4, M5. setoid_rewrite M1. setoid_rewrite M2.
  setoid_rewrite M3. setoid_rewrite M4. setoid_rewrite M5.
  clear M1 M2 M3 M4 M5.
  destruct b1, b2, b3, b4, b5; cbn [negb append app list_truthy];
    run_tool; read_field;
    (split; [intuition congruence|]);
    (split; [auto|]);
    eexists; (split; [reflexivity|]);
    (split; [apply (bool_decide_unpack _); by vm_compute|]);
    (split; [|try done; intros [=]]);
    intros name; rewrite ?elem_of_cons, elem_of_nil;
    intuition congruence.
Qed.

End ContentCheck.

(** ** The style check *)

Lemma emoji_test_spec (text : str) :
  any (List.map str_truthy
         (List.filter (fun char => contains char EMOJI) (chars text))) = true
  <-> has_emoji text.
Proof.
  rewrite any_true, list_elem_of_In, in_map_iff. unfold has_emoji, chars.
  split.
  - intros (ch & _ & (Hin & Hc)%filter_In).
    apply in_map_iff in Hin as (c & <- & Hin).
    exists c. by rewrite list_elem_of_In, <- contains_char.
  - intros (c & Hin & Hc). exists [c]. split; [done|].
    apply filter_In. split.
    + apply in_map_iff. exists c. by rewrite <- list_elem_of_In.
    + by apply contains_char.
Qed.

Lemma hash_test_spec (text : str) :
  contains (lit "#") text = true <-> N_of_ascii "#" ∈ text.
Proof. apply contains_char. Qed.

Section StyleCheck.

Variable lower : str -> str.
Hypothesis lower_ascii : lower_on_ascii lower.

(** C3. [check_style_elements] returns result 'fail' exactly when the
    text holds a character of the emoji literal, or the character '#',
    or an informal-language token as a case-insensitive substring;
    issues lists exactly the violated rules, each once, and is empty on
    pass. *)
Theorem check_style_elements_issues (text : str) (w : World) :
  let r := returned (check_style_elements lower text) w in
  let emoji := has_emoji text in
  let hashtag := N_of_ascii "#" ∈ text in
  let informal := some_occurs_ci lower informal_keywords text in
  (r !! "result" = Some (VStr "fail") <-> emoji \/ hashtag \/ informal) /\
  (r !! "result" = Some (VStr "fail") \/ r !! "result" = Some (VStr "pass")) /\
  exists issues,
    r !! "issues" = Some (VList issues) /\
    NoDup issues /\
    (forall name, name ∈ issues <->
       name = "NO emojis" /\ emoji \/
       name = "NO hashtags" /\ hashtag \/
       name = "Professional tone (avoid informal language)" /\ informal) /\
    (r !! "result" = Some (VStr "pass") -> issues = []).
Proof.
  intros r emoji hashtag informal.
  pose proof (emoji_test_spec text) as H1.
  pose proof (hash_test_spec text) as H2.
  pose proof (any_keyword_in_lower_ci lower _ text lower_ascii
                lowercase_literals_informal) as H3.
  subst r. unfold check_style_elements.
  fold emoji in H1. fold hashtag in H2. fold informal in H3.
  set (b1 := any _) in *.
  set (b2 := contains (lit "#") text) in *.
  set (b3 := any_keyword_in_lower lower informal_keywords text) in *.
  clearbody b1 b2 b3 emoji hashtag informal.
  rewrite <- H1, <- H2, <- H3. setoid_rewrite <- H1. setoid_rewrite <- H2.
  setoid_rewrite <- H3. clear H1 H2 H3.
  destruct b1, b2, b3; cbn [append app list_truthy];
    run_tool; read_field;
    (split; [intuition congruence|]);
    (split; [auto|]);
    eexists; (split; [reflexivity|]);
    (split; [apply (bool_decide_unpack _); by vm_compute|]);
    (split; [|try done; intros [=]]);
    intros name; rewrite ?elem_of_cons, elem_of_nil;
    intuition congruence.
Qed.

End StyleCheck.

(** ** What the validators do to the context *)

Lemma count_characters_effect (text : str) (w : World) :
  exists v,
    returned (count_characters text) w !! "result" = Some (VStr v) /\
    (v = "pass" \/ v = "fail") /\
    context_after (count_characters text) w
    = with_state "review_status" (VStr v) (tool_context w).
Proof.
  unfold count_characters. cbv zeta. run_tool.
  destruct (len text <? 1000); [|destruct (len text >? 1500)];
    run_tool; read_field; eexists; eauto.
Qed.

Lemma check_content_elements_effect lower (text : str) (w : World) :
  (returned (check_content_elements lower text) w !! "result"
     = Some (VStr "fail") /\
   context_after (check_content_elements lower text) w
     = with_state "review_status" (VStr "fail") (tool_context w)) \/
  (returned (check_content_elements lower text) w !! "result"
     = Some (VStr "pass") /\
   snd (check_content_elements lower text w) = w).
Proof.
  unfold check_content_elements. cbv zeta.
  destruct (list_truthy _); run_tool; read_field; auto.
Qed.

Lemma check_style_elements_effect lower (text : str) (w : World) :
  (returned (check_style_elements lower text) w !! "result"
     = Some (VStr "fail") /\
   context_after (check_style_elements lower text) w
     = with_state "review_status" (VStr "fail") (tool_context w)) \/
  (returned (check_style_elements lower text) w !! "result"
     = Some (VStr "pass") /\
   snd (check_style_elements lower text w) = w).
Proof.
  unfold check_style_elements. cbv zeta.
  destruct (list_truthy _); run_tool; read_field; auto.
Qed.

(** The returned dictionaries do not depend on the world. *)
Lemma count_characters_returned (text : str) (w1 w2 : World) :
  returned (count_characters text) w1 = returned (count_characters text) w2.
Proof.
  unfold count_characters. cbv zeta. run_tool.
  by destruct (len text <? 1000); [|destruct (len text >? 1500)].
Qed.

Lemma check_content_elements_returned lower (text : str) (w1 w2 : World) :
  returned (check_content_elements lower text) w1
  = returned (check_content_elements lower text) w2.
Proof.
  unfold check_content_elements. cbv zeta. by destruct (list_truthy _).
Qed.

Lemma check_style_elements_returned lower (text : str) (w1 w2 : World) :
  returned (check_style_elements lower text) w1
  = returned (check_style_elements lower text) w2.
Proof.
  unfold check_style_elements. cbv zeta. by destruct (list_truthy _).
Qed.

Lemma with_state_twice (k : string) (v : value) (ctx : ToolContext) :
  with_state k v (with_state k v ctx) = with_state k v ctx.
Proof. unfold with_state. cbn. by rewrite insert_insert_eq. Qed.

(** ** Frame of the validators *)

(** C5, as the code has it. Each validator changes the session state in
    the review_status field at most: every other key of the state and the
    actions (the escalate flag) are as before the call. *)
Theorem validators_change_only_review_status
    lower (text : str) (w : World) (key : string) :
  key <> "review_status" ->
  (state_after (count_characters text) w !! key = state (tool_context w) !! key /\
   actions (context_after (count_characters text) w) = actions (tool_context w)) /\
  (state_after (check_content_elements lower text) w !! key
     = state (tool_context w) !! key /\
   actions (context_after (check_content_elements lower text) w)
     = actions (tool_context w)) /\
  (state_after (check_style_elements lower text) w !! key
     = state (tool_context w) !! key /\
   actions (context_after (check_style_elements lower text) w)
     = actions (tool_context w)).
Proof.
  intros Hkey. unfold state_after.
  split; [|split].
  - destruct (count_characters_effect text w) as (v & _ & _ & ->).
    unfold with_state. cbn. by rewrite lookup_insert_ne by congruence.
  - destruct (check_content_elements_effect lower text w) as [[_ ->]|[_ Hw]].
    + unfold with_state. cbn. by rewrite lookup_insert_ne by congruence.
    + unfold context_after. by rewrite Hw.
  - destruct (check_style_elements_effect lower text w) as [[_ ->]|[_ Hw]].
    + unfold with_state. cbn. by rewrite lookup_insert_ne by congruence.
    + unfold context_after. by rewrite Hw.
Qed.

Lemma validators_change_only_review_status_topic :
  "topic" <> "review_status" /\
  state_after (count_characters []) w0 !! "topic"
  = state (tool_context w0) !! "topic".
Proof.
  split; [discriminate|].
  apply (validators_change_only_review_status ascii_lower [] w0 "topic").
  discriminate.
Defined.

(** C5, as stated, fails: on the empty text and an empty session,
    [count_characters] leaves a session state that differs from the one it
    was given. *)
Lemma count_characters_writes_session_state :
  state_after (count_characters []) w0 <> state (tool_context w0).
Proof.
  intros Heq. apply (f_equal (lookup "review_status")) in Heq.
  vm_compute in Heq. discriminate.
Qed.

(** C10. [count_characters] writes review_status on every call, with its
    own result; the content and style checks write it ('fail') only when
    they fail and leave the whole state as it was when they pass. *)
Theorem review_status_written_asymmetrically lower (text : str) (w : World) :
  (exists v,
     returned (count_characters text) w !! "result" = Some (VStr v) /\
     (v = "pass" \/ v = "fail") /\
     state_after (count_characters text) w
     = <["review_status" := VStr v]> (state (tool_context w))) /\
  (returned (check_content_elements lower text) w !! "result"
     = Some (VStr "fail") ->
   state_after (check_content_elements lower text) w
   = <["review_status" := VStr "fail"]> (state (tool_context w))) /\
  (returned (check_content_elements lower text) w !! "result"
     = Some (VStr "pass") ->
   state_after (check_content_elements lower text) w = state (tool_context w)) /\
  (returned (check_style_elements lower text) w !! "result"
     = Some (VStr "fail") ->
   state_after (check_style_elements lower text) w
   = <["review_status" := VStr "fail"]> (state (tool_context w))) /\
  (returned (check_style_elements lower text) w !! "result"
     = Some (VStr "pass") ->
   state_after (check_style_elements lower text) w = state (tool_context w)).
Proof.
  unfold state_after.
  split; [|split; [|split; [|split]]].
  - destruct (count_characters_effect text w) as (v & Hr & Hv & ->).
    by exists v.
  - destruct (check_content_elements_effect lower text w)
      as [[_ ->]|[Hr _]]; [done|]. rewrite Hr. discriminate.
  - destruct (check_content_elements_effect lower text w)
      as [[Hr _]|[_ Hw]]; [rewrite Hr; discriminate|].
    intros _. unfold context_after. by rewrite Hw.
  - destruct (check_style_elements_effect lower text w)
      as [[_ ->]|[Hr _]]; [done|]. rewrite Hr. discriminate.
  - destruct (check_style_elements_effect lower text w)
      as [[Hr _]|[_ Hw]]; [rewrite Hr; discriminate|].
    intros _. unfold context_after. by rewrite Hw.
Qed.

(** ** Determinism and idempotence *)

Lemma depends_on_text_only_no_leak (tool : str -> Tool dict) :
  depends_on_text_only tool -> no_leak_between_calls tool.
Proof. intros Hdep text text' w. apply Hdep. Qed.

Lemma count_characters_idempotent : idempotent count_characters.
Proof.
  intros text w w1. split; [apply count_characters_returned|].
  destruct (count_characters_effect text w1) as (v1 & Hr1 & _ & ->).
  destruct (count_characters_effect text w) as (v & Hr & _ & Hctx).
  rewrite (count_characters_returned text w1 w), Hr in Hr1.
  injection Hr1 as ->. subst w1. fold (context_after (count_characters text) w).
  rewrite Hctx. apply with_state_twice.
Qed.

Lemma check_content_elements_idempotent lower :
  idempotent (check_content_elements lower).
Proof.
  intros text w w1. split; [apply check_content_elements_returned|].
  destruct (check_content_elements_effect lower text w1)
    as [[Hr1 ->]|[_ Hw1]]; [|unfold context_after; by rewrite Hw1].
  destruct (check_content_elements_effect lower text w)
    as [[_ Hctx]|[Hr _]].
  - subst w1. fold (context_after (check_content_elements lower text) w).
    rewrite Hctx. apply with_state_twice.
  - rewrite (check_content_elements_returned lower text w1 w), Hr in Hr1.
    discriminate.
Qed.

Lemma check_style_elements_idempotent lower :
  idempotent (check_style_elements lower).
Proof.
  intros text w w1. split; [apply check_style_elements_returned|].
  destruct (check_style_elements_effect lower text w1)
    as [[Hr1 ->]|[_ Hw1]]; [|unfold context_after; by rewrite Hw1].
  destruct (check_style_elements_effect lower text w)
    as [[_ Hctx]|[Hr _]].
  - subst w1. fold (context_after (check_style_elements lower text) w).
    rewrite Hctx. apply with_state_twice.
  - rewrite (check_style_elements_returned lower text w1 w), Hr in Hr1.
    discriminate.
Qed.

(** C8. Each validator returns a value that is a function of the text
    alone; run twice on the same text it returns the same value (and leaves
    the context as the first run left it), and a call on another text in
    between does not change what it returns. *)
Theorem validators_deterministic_idempotent (lower : str -> str) :
  (depends_on_text_only count_characters /\
   idempotent count_characters /\
   no_leak_between_calls count_characters) /\
  (depends_on_text_only (check_content_elements lower) /\
   idempotent (check_content_elements lower) /\
   no_leak_between_calls (check_content_elements lower)) /\
  (depends_on_text_only (check_style_elements lower) /\
   idempotent (check_style_elements lower) /\
   no_leak_between_calls (check_style_elements lower)).
Proof.
  assert (depends_on_text_only count_characters) as H1
    by (intros ???; apply count_characters_returned).
  assert (depends_on_text_only (check_content_elements lower)) as H2
    by (intros ???; apply check_content_elements_returned).
  assert (depends_on_text_only (check_style_elements lower)) as H3
    by (intros ???; apply check_style_elements_returned).
  auto 10 using depends_on_text_only_no_leak, count_characters_idempotent,
    check_content_elements_idempotent, check_style_elements_idempotent.
Qed.

(** ** Totality *)

Lemma count_characters_well_formed (text : str) (w : World) :
  well_formed (returned (count_characters text) w).
Proof.
  unfold well_formed, count_characters. cbv zeta. run_tool.
  destruct (len text <? 1000); [|destruct (len text >? 1500)];
    run_tool; read_field; repeat split; eauto.
Qed.

Lemma check_content_elements_well_formed lower (text : str) (w : World) :
  well_formed (returned (check_content_elements lower text) w) /\
  exists names,
    returned (check_content_elements lower text) w !! "missing_elements"
    = Some (VList names).
Proof.
  unfold well_formed, check_content_elements. cbv zeta.
  destruct (list_truthy _); run_tool; read_field;
    repeat split; eauto.
Qed.

Lemma check_style_elements_well_formed lower (text : str) (w : World) :
  well_formed (returned (check_style_elements lower text) w) /\
  exists names,
    returned (check_style_elements lower text) w !! "issues"
    = Some (VList names).
Proof.
  unfold well_formed, check_style_elements. cbv zeta.
  destruct (list_truthy _); run_tool; read_field;
    repeat split; eauto.
Qed.

(** C7. Every validator is total: on every text (and context) it returns
    a dictionary with a result 'pass' or 'fail' and a message, the content
    and style checks with their list of names; the empty text fails the
    length check with chars_needed = 1000. *)
Theorem validators_total (lower : str -> str) (text : str) (w : World) :
  (exists r w', count_characters text w = (r, w') /\ well_formed r) /\
  (exists r w', check_content_elements lower text w = (r, w') /\
     well_formed r /\
     exists names, r !! "missing_elements" = Some (VList names)) /\
  (exists r w', check_style_elements lower text w = (r, w') /\
     well_formed r /\
     exists names, r !! "issues" = Some (VList names)) /\
  returned (count_characters []) w !! "result" = Some (VStr "fail") /\
  returned (count_characters []) w !! "chars_needed" = Some (VInt 1000).
Proof.
  split; [|split; [|split]].
  - exists (returned (count_characters text) w), (snd (count_characters text w)).
    split; [apply surjective_pairing|].
    apply count_characters_well_formed.
  - exists (returned (check_content_elements lower text) w),
      (snd (check_content_elements lower text w)).
    split; [apply surjective_pairing|].
    apply check_content_elements_well_formed.
  - exists (returned (check_style_elements lower text) w),
      (snd (check_style_elements lower text w)).
    split; [apply surjective_pairing|].
    apply check_style_elements_well_formed.
  - split; reflexivity.
Qed.

(** ** The mention token *)

(** C9. The mention test is on the text as written: a text that holds
    '@AIwithBrandon' but not the exact '@aiwithbrandon' fails the content
    check, and 'Mentions @aiwithbrandon' is among its missing elements. *)
Theorem mention_is_case_sensitive (lower : str -> str) (text : str) (w : World) :
  is_substring (lit "@AIwithBrandon") text ->
  ~ is_substring (lit "@aiwithbrandon") text ->
  returned (check_content_elements lower text) w !! "result"
    = Some (VStr "fail") /\
  exists missing_elements,
    returned (check_content_elements lower text) w !! "missing_elements"
      = Some (VList missing_elements) /\
    "Mentions @aiwithbrandon" ∈ missing_elements.
Proof.
  intros _ Hno%contains_false.
  unfold check_content_elements. rewrite Hno. cbv zeta.
  cbn [negb append app].
  destruct (Z.of_nat _ <? 4), (any_keyword_in_lower lower call_to_action_keywords text),
    (any_keyword_in_lower lower practical_application_keywords text),
    (any_keyword_in_lower lower enthusiasm_keywords text);
    cbn [negb append app list_truthy]; run_tool; read_field;
    (split; [done|]); eexists; (split; [done|]); set_solver.
Qed.

Lemma mention_is_case_sensitive_capitalised :
  is_substring (lit "@AIwithBrandon") (lit "Follow @AIwithBrandon") /\
  ~ is_substring (lit "@aiwithbrandon") (lit "Follow @AIwithBrandon") /\
  returned (check_content_elements ascii_lower (lit "Follow @AIwithBrandon")) w0
    !! "result" = Some (VStr "fail").
Proof.
  assert (is_substring (lit "@AIwithBrandon") (lit "Follow @AIwithBrandon")) as H1
    by (apply contains_spec; reflexivity).
  assert (~ is_substring (lit "@aiwithbrandon") (lit "Follow @AIwithBrandon")) as H2
    by (apply contains_false; reflexivity).
  split; [exact H1|]. split; [exact H2|].
  exact (proj1 (mention_is_case_sensitive ascii_lower _ w0 H1 H2)).
Defined.

(** The other content requirements and the informal-language rule look at
    the lower-cased text only: two texts with the same lower-casing fare
    alike on them. *)
Lemma keyword_checks_ignore_case lower (keywords : list string) (text text' : str) :
  lower text = lower text' ->
  any_keyword_in_lower lower keywords text
  = any_keyword_in_lower lower keywords text'.
Proof. unfold any_keyword_in_lower. by intros ->. Qed.

(** ** Running tools one after another *)

Lemma bind_run {A B} (m : Tool A) (k : A -> Tool B) (w : World) :
  bind m k w = k (fst (m w)) (snd (m w)).
Proof. unfold bind. by destruct (m w). Qed.

(** ** The termination signal *)



(** ** The validators on concrete posts *)

Lemma ascii_lower_on_ascii : lower_on_ascii ascii_lower.
Proof. intros s _. reflexivity. Qed.

Example good_post_length : len good_post = 1200.
Proof. reflexivity. Qed.

Example good_post_passes :
  returned (count_characters good_post) w0 !! "result" = Some (VStr "pass") /\
  returned (check_content_elements ascii_lower good_post) w0 !! "result"
    = Some (VStr "pass") /\
  returned (check_style_elements ascii_lower good_post) w0 !! "result"
    = Some (VStr "pass").
Proof. repeat split; vm_compute; reflexivity. Qed.

Example post_of_800_characters :
  returned (count_characters (repeat (N_of_ascii "a") 800)) w0 !! "chars_needed"
  = Some (VInt 200).
Proof. vm_compute. reflexivity. Qed.

Example growth_hashtag :
  returned (check_style_elements ascii_lower (good_post ++ lit " #growth")) w0
    !! "issues" = Some (VList ["NO hashtags"]).
Proof. vm_compute. reflexivity. Qed.

Example boundaries_pass :
  returned (count_characters (repeat (N_of_ascii "a") 1000)) w0 !! "result"
    = Some (VStr "pass") /\
  returned (count_characters (repeat (N_of_ascii "a") 1500)) w0 !! "result"
    = Some (VStr "pass") /\
  returned (count_characters (repeat (N_of_ascii "a") 999)) w0 !! "result"
    = Some (VStr "fail") /\
  returned (count_characters (repeat (N_of_ascii "a") 1501)) w0 !! "result"
    = Some (VStr "fail").
Proof. repeat split; vm_compute; reflexivity. Qed.

Example two_missing :
  len two_missing_post = 1100 /\
  returned (count_characters two_missing_post) w0 !! "result"
    = Some (VStr "pass") /\
  returned (check_content_elements ascii_lower two_missing_post) w0
    !! "missing_elements"
    = Some (VList ["Mentions @aiwithbrandon"; "Shows genuine enthusiasm"]) /\
  returned (check_style_elements ascii_lower two_missing_post) w0 !! "result"
    = Some (VStr "pass").
Proof. repeat split; vm_compute; reflexivity. Qed.

Lemma check_content_elements_missing_two :
  lower_on_ascii ascii_lower /\
  (returned (check_content_elements ascii_lower two_missing_post) w0 !! "result"
     = Some (VStr "fail") \/
   returned (check_content_elements ascii_lower two_missing_post) w0 !! "result"
     = Some (VStr "pass")).
Proof.
  split; [exact ascii_lower_on_ascii|].
  exact (proj1 (proj2 (check_content_elements_missing ascii_lower
                         ascii_lower_on_ascii two_missing_post w0))).
Defined.

Lemma check_style_elements_issues_growth :
  lower_on_ascii ascii_lower /\
  (returned (check_style_elements ascii_lower (lit "#growth")) w0 !! "result"
     = Some (VStr "fail") <->
   has_emoji (lit "#growth") \/ N_of_ascii "#" ∈ lit "#growth" \/
   some_occurs_ci ascii_lower informal_keywords (lit "#growth")).
Proof.
  split; [exact ascii_lower_on_ascii|].
  exact (proj1 (check_style_elements_issues ascii_lower
                  ascii_lower_on_ascii (lit "#growth") w0)).
Defined.

(** * Further properties of the tools *)

(** ** The three outcomes of the length check *)

Lemma count_characters_by_length (text : str) (w : World) :
  let L := len text in
  let r := returned (count_characters text) w in
  (L < 1000 /\ fails r /\
   r !! "chars_needed" = Some (VInt (1000 - L)) /\
   r !! "chars_to_remove" = None) \/
  (L > 1500 /\ fails r /\
   r !! "chars_needed" = None /\
   r !! "chars_to_remove" = Some (VInt (L - 1500))) \/
  (1000 <= L <= 1500 /\ passes r /\
   r !! "chars_needed" = None /\ r !! "chars_to_remove" = None).
Proof.
  intros L r. subst r. unfold count_characters, fails, passes. fold L.
  run_tool.
  destruct (L <? 1000) eqn:Hmin; [|destruct (L >? 1500) eqn:Hmax];
    run_tool; read_field.
  - apply Z.ltb_lt in Hmin. left. repeat split; done.
  - apply Z.ltb_ge in Hmin. apply Z.gtb_lt in Hmax.
    right; left. repeat split; try done; lia.
  - apply Z.ltb_ge in Hmin. rewrite Z.gtb_ltb in Hmax. apply Z.ltb_ge in Hmax.
    right; right. repeat split; try done; lia.
Qed.

Lemma passes_not_fails (r : dict) : passes r -> ~ fails r.
Proof. unfold passes, fails. intros -> [=]. Qed.

(** ** The lists of the content and style checks *)

(** [missing_elements] is the run of the five names, each kept when its
    test fails. *)
Lemma content_missing_list lower (text : str) (w : World) :
  let r := returned (check_content_elements lower text) w in
  missing_elements_of r =
    (if contains (lit "@aiwithbrandon") text then []
     else ["Mentions @aiwithbrandon"]) ++
    (if Z.of_nat (length (List.filter
           (fun cap => contains (lower (lit cap)) (lower text))
           adk_capabilities)) <? 4
     then ["Lists at least 4 ADK capabilities"] else []) ++
    (if any_keyword_in_lower lower call_to_action_keywords text then []
     else ["Has a clear call-to-action"]) ++
    (if any_keyword_in_lower lower practical_application_keywords text then []
     else ["Includes practical applications"]) ++
    (if any_keyword_in_lower lower enthusiasm_keywords text then []
     else ["Shows genuine enthusiasm"]) /\
  (fails r <-> missing_elements_of r <> []) /\
  (passes r <-> missing_elements_of r = []).
Proof.
  intros r. subst r. unfold check_content_elements, fails, passes,
    missing_elements_of.
  destruct (contains (lit "@aiwithbrandon") text), (Z.of_nat _ <? 4),
    (any_keyword_in_lower lower call_to_action_keywords text),
    (any_keyword_in_lower lower practical_application_keywords text),
    (any_keyword_in_lower lower enthusiasm_keywords text);
    cbn [negb append app list_truthy]; run_tool; read_field;
    (split; [reflexivity|]); split; split; congruence.
Qed.

(** [issues] is the run of the three names, each kept when its rule is
    violated. *)
Lemma style_issues_list lower (text : str) (w : World) :
  let r := returned (check_style_elements lower text) w in
  issues_of r =
    (if any (List.map str_truthy
               (List.filter (fun char => contains char EMOJI) (chars text)))
     then ["NO emojis"] else []) ++
    (if contains (lit "#") text then ["NO hashtags"] else []) ++
    (if any_keyword_in_lower lower informal_keywords text
     then ["Professional tone (avoid informal language)"] else []) /\
  (fails r <-> issues_of r <> []) /\
  (passes r <-> issues_of r = []).
Proof.
  intros r. subst r. unfold check_style_elements, fails, passes, issues_of.
  destruct (any _), (contains (lit "#") text),
    (any_keyword_in_lower lower informal_keywords text);
    cbn [append app list_truthy]; run_tool; read_field;
    (split; [reflexivity|]); split; split; congruence.
Qed.

(** ** The detail fields of the length check *)

(** X1. [chars_needed] is in the result exactly for a text shorter than
    1000, [chars_to_remove] exactly for one longer than 1500, never both
    and neither on pass; the number reported is at least 1 (and at most
    1000 for [chars_needed]). *)
Theorem count_characters_detail_keys (text : str) (w : World) :
  let r := returned (count_characters text) w in
  (is_Some (r !! "chars_needed") <-> len text < 1000) /\
  (is_Some (r !! "chars_to_remove") <-> len text > 1500) /\
  (passes r <->
     r !! "chars_needed" = None /\ r !! "chars_to_remove" = None) /\
  (forall k, r !! "chars_needed" = Some (VInt k) -> 1 <= k <= 1000) /\
  (forall k, r !! "chars_to_remove" = Some (VInt k) -> 1 <= k).
Proof.
  intros r.
  assert (0 <= len text) as Hlen by (unfold len; lia).
  pose proof (passes_not_fails r) as Hpf.
  destruct (count_characters_by_length text w)
    as [(HL & Hf & Hn & Hr)|[(HL & Hf & Hn & Hr)|(HL & Hp & Hn & Hr)]];
    fold r in Hn, Hr; rewrite Hn, Hr; unfold is_Some;
    split_and!; naive_solver lia.
Qed.

(** X2. The number under [chars_needed] is the gap to the window: a text
    that got [chars_needed = k] passes the length check after [extra] is
    appended exactly when [extra] has between k and k + 500 characters. *)
Theorem appending_chars_needed (text extra : str) (w : World) (k : Z) :
  returned (count_characters text) w !! "chars_needed" = Some (VInt k) ->
  passes (returned (count_characters (text ++ extra)) w) <->
  k <= len extra <= k + 500.
Proof.
  intros Hk.
  assert (len (text ++ extra) = len text + len extra) as Happ
    by (unfold len; rewrite length_app; lia).
  destruct (count_characters_by_length text w)
    as [(HL & _ & Hn & _)|[(_ & _ & Hn & _)|(_ & _ & Hn & _)]];
    rewrite Hn in Hk; [|done..]. injection Hk as <-.
  destruct (count_characters_by_length (text ++ extra) w)
    as [(HL' & Hf & _)|[(HL' & Hf & _)|(HL' & Hp & _)]];
    rewrite Happ in HL'.
  - split; [intros Hp; by apply passes_not_fails in Hp|lia].
  - split; [intros Hp; by apply passes_not_fails in Hp|lia].
  - split; [lia|done].
Qed.

Lemma appending_chars_needed_200 :
  returned (count_characters (repeat (N_of_ascii "a") 800)) w0 !! "chars_needed"
    = Some (VInt 200) /\
  (passes (returned (count_characters
     (repeat (N_of_ascii "a") 800 ++ repeat (N_of_ascii "b") 200)) w0) <->
   200 <= len (repeat (N_of_ascii "b") 200) <= 200 + 500).
Proof.
  split; [reflexivity|].
  apply (appending_chars_needed (repeat (N_of_ascii "a") 800)
           (repeat (N_of_ascii "b") 200) w0 200).
  reflexivity.
Defined.

(** X3. The number under [chars_to_remove] is the excess over the window:
    a text that got [chars_to_remove = k] passes the length check after
    its last [n] characters are cut exactly when k <= n <= k + 500. *)
Theorem cutting_chars_to_remove (text : str) (n : nat) (w : World) (k : Z) :
  returned (count_characters text) w !! "chars_to_remove" = Some (VInt k) ->
  (n <= length text)%nat ->
  passes (returned (count_characters (take (length text - n) text)) w) <->
  k <= Z.of_nat n <= k + 500.
Proof.
  intros Hk Hn.
  assert (len (take (length text - n) text) = len text - Z.of_nat n) as Hcut
    by (unfold len; rewrite length_take; lia).
  destruct (count_characters_by_length text w)
    as [(_ & _ & _ & Hr)|[(HL & _ & _ & Hr)|(_ & _ & _ & Hr)]];
    rewrite Hr in Hk; [done| |done]. injection Hk as <-.
  destruct (count_characters_by_length (take (length text - n) text) w)
    as [(HL' & Hf & _)|[(HL' & Hf & _)|(HL' & Hp & _)]];
    rewrite Hcut in HL'.
  - split; [intros Hp; by apply passes_not_fails in Hp|lia].
  - split; [intros Hp; by apply passes_not_fails in Hp|lia].
  - split; [lia|done].
Qed.

Lemma cutting_chars_to_remove_100 :
  returned (count_characters (repeat (N_of_ascii "a") 1600)) w0
    !! "chars_to_remove" = Some (VInt 100) /\
  (100 <= length (repeat (N_of_ascii "a") 1600))%nat /\
  (passes (returned (count_characters
     (take (length (repeat (N_of_ascii "a") 1600) - 100)
        (repeat (N_of_ascii "a") 1600))) w0) <->
   100 <= Z.of_nat 100 <= 100 + 500).
Proof.
  assert (100 <= length (repeat (N_of_ascii "a") 1600))%nat as Hn
    by (rewrite repeat_length; lia).
  split; [reflexivity|]. split; [exact Hn|].
  apply (cutting_chars_to_remove (repeat (N_of_ascii "a") 1600) 100 w0 100).
  - reflexivity.
  - exact Hn.
Defined.

(** ** What a passing check says about the post *)

Lemma found_capabilities_enough lower (text : str) :
  (Z.of_nat (length (List.filter
      (fun cap => contains (lower (lit cap)) (lower text)) adk_capabilities)) <? 4)
    = false <->
  at_least_capabilities lower 4 text.
Proof.
  rewrite Z.ltb_ge. unfold at_least_capabilities, occurs_ci.
  pose proof (filter_count_ge
    (fun cap => contains (lower (lit cap)) (lower text))
    adk_capabilities 4 adk_capabilities_NoDup) as Hcount.
  setoid_rewrite contains_spec in Hcount.
  rewrite <- Hcount. lia.
Qed.

Lemma count_characters_passes (text : str) (w : World) :
  passes (returned (count_characters text) w) <-> 1000 <= len text <= 1500.
Proof.
  destruct (count_characters_by_length text w)
    as [(HL & Hf & _)|[(HL & Hf & _)|(HL & Hp & _)]].
  - split; [intros Hp; by apply passes_not_fails in Hp|lia].
  - split; [intros Hp; by apply passes_not_fails in Hp|lia].
  - done.
Qed.

Lemma content_passes lower (text : str) (w : World) :
  lower_on_ascii lower ->
  passes (returned (check_content_elements lower text) w) <->
  is_substring (lit "@aiwithbrandon") text /\
  at_least_capabilities lower 4 text /\
  some_occurs_ci lower call_to_action_keywords text /\
  some_occurs_ci lower practical_application_keywords text /\
  some_occurs_ci lower enthusiasm_keywords text.
Proof.
  intros Hlower.
  destruct (content_missing_list lower text w) as (Hlist & _ & ->).
  rewrite Hlist.
  rewrite <- contains_spec, <- found_capabilities_enough,
    <- !(any_keyword_in_lower_ci lower _ text Hlower)
    by (apply lowercase_literals_call_to_action
        || apply lowercase_literals_practical
        || apply lowercase_literals_enthusiasm).
  destruct (contains (lit "@aiwithbrandon") text), (Z.of_nat _ <? 4),
    (any_keyword_in_lower lower call_to_action_keywords text),
    (any_keyword_in_lower lower practical_application_keywords text),
    (any_keyword_in_lower lower enthusiasm_keywords text);
    cbn [app]; intuition congruence.
Qed.

Lemma style_passes lower (text : str) (w : World) :
  lower_on_ascii lower ->
  passes (returned (check_style_elements lower text) w) <->
  ~ has_emoji text /\ (N_of_ascii "#" ∉ text) /\
  ~ some_occurs_ci lower informal_keywords text.
Proof.
  intros Hlower.
  destruct (style_issues_list lower text w) as (Hlist & _ & ->).
  rewrite Hlist.
  rewrite <- emoji_test_spec, <- hash_test_spec,
    <- (any_keyword_in_lower_ci lower _ text Hlower
          lowercase_literals_informal).
  destruct (any _), (contains (lit "#") text),
    (any_keyword_in_lower lower informal_keywords text);
    cbn [app]; intuition congruence.
Qed.

(** ** The review status after the three validators *)

(** X5. When the three validators are run one after another on the same
    context, the length check first, the session state ends as the state
    before with review_status set: to 'pass' exactly when all three
    checks pass, to 'fail' exactly when one of them fails. *)
Theorem review_status_after_all_checks
    (lower : str -> str) (text : str) (w : World) :
  let r1 := returned (count_characters text) w in
  let r2 := returned (check_content_elements lower text) w in
  let r3 := returned (check_style_elements lower text) w in
  let all_checks :=
    and_then (count_characters text)
      (and_then (check_content_elements lower text)
         (check_style_elements lower text)) in
  exists v,
    state_after all_checks w
    = <["review_status" := VStr v]> (state (tool_context w)) /\
    (v = "pass" <-> passes r1 /\ passes r2 /\ passes r3) /\
    (v = "fail" <-> fails r1 \/ fails r2 \/ fails r3).
Proof.
  intros r1 r2 r3 all_checks. subst all_checks.
  unfold state_after, context_after, and_then. rewrite !bind_run.
  set (w1 := snd (count_characters text w)).
  set (w2 := snd (check_content_elements lower text w1)).
  destruct (count_characters_effect text w) as (v1 & Hr1 & Hv1 & Hctx1).
  unfold context_after in Hctx1. fold w1 in Hctx1. fold r1 in Hr1.
  destruct (check_content_elements_effect lower text w1) as [[Hr2 Hctx2]|[Hr2 Hw2]];
    rewrite (check_content_elements_returned lower text w1 w) in Hr2;
    fold r2 in Hr2;
    [unfold context_after in Hctx2; fold w2 in Hctx2 | fold w2 in Hw2];
    (destruct (check_style_elements_effect lower text w2) as [[Hr3 Hctx3]|[Hr3 Hw3]];
     rewrite (check_style_elements_returned lower text w2 w) in Hr3;
     fold r3 in Hr3;
     [unfold context_after in Hctx3; rewrite Hctx3 | rewrite Hw3]).
  all: unfold passes, fails, with_state.
  - exists "fail". rewrite Hctx2, Hctx1. cbn. rewrite !insert_insert_eq.
    split; [done|]. intuition congruence.
  - exists "fail". rewrite Hctx2, Hctx1. cbn. rewrite !insert_insert_eq.
    split; [done|]. intuition congruence.
  - exists "fail". rewrite Hw2, Hctx1. cbn. rewrite !insert_insert_eq.
    split; [done|]. intuition congruence.
  - exists v1. rewrite Hw2, Hctx1. cbn.
    split; [done|]. destruct Hv1 as [-> | ->]; intuition congruence.
Qed.

(** ** The order of the validators matters for review_status *)

(** X6. On a post that passes the length check and fails the content
    check, review_status ends as 'fail' when the length check runs first
    and as 'pass' when it runs last: [count_characters] overwrites the
    failure the content check recorded. *)
Theorem length_check_overwrites_content_failure
    (lower : str -> str) (text : str) (w : World) :
  passes (returned (count_characters text) w) ->
  fails (returned (check_content_elements lower text) w) ->
  state_after (and_then (count_characters text)
                 (check_content_elements lower text)) w
    !! "review_status" = Some (VStr "fail") /\
  state_after (and_then (check_content_elements lower text)
                 (count_characters text)) w
    !! "review_status" = Some (VStr "pass").
Proof.
  intros Hp Hf. unfold state_after, context_after, and_then.
  rewrite !bind_run. split.
  - set (w1 := snd (count_characters text w)).
    destruct (check_content_elements_effect lower text w1)
      as [[_ Hctx]|[Hr _]].
    + unfold context_after in Hctx. rewrite Hctx. cbn.
      by rewrite lookup_insert_eq.
    + rewrite (check_content_elements_returned lower text w1 w) in Hr.
      by apply passes_not_fails in Hr.
  - set (w1 := snd (check_content_elements lower text w)).
    destruct (count_characters_effect text w1) as (v & Hr & _ & Hctx).
    rewrite (count_characters_returned text w1 w) in Hr.
    unfold passes in Hp. rewrite Hp in Hr. injection Hr as <-.
    unfold context_after in Hctx. rewrite Hctx. cbn.
    by rewrite lookup_insert_eq.
Qed.

Lemma length_check_overwrites_content_failure_two_missing :
  passes (returned (count_characters two_missing_post) w0) /\
  fails (returned (check_content_elements ascii_lower two_missing_post) w0) /\
  state_after (and_then (check_content_elements ascii_lower two_missing_post)
                 (count_characters two_missing_post)) w0
    !! "review_status" = Some (VStr "pass").
Proof.
  assert (passes (returned (count_characters two_missing_post) w0)) as Hp
    by reflexivity.
  assert (fails (returned (check_content_elements ascii_lower
                             two_missing_post) w0)) as Hf
    by reflexivity.
  split; [exact Hp|]. split; [exact Hf|].
  exact (proj2 (length_check_overwrites_content_failure ascii_lower
                  two_missing_post w0 Hp Hf)).
Defined.

(** ** Which test puts which name on the list *)

Ltac names_in_list :=
  rewrite ?elem_of_app, ?elem_of_cons, ?elem_of_nil; intuition congruence.

Lemma style_issue_raised lower (text : str) (w : World) :
  let issues := issues_of (returned (check_style_elements lower text) w) in
  ("NO emojis" ∈ issues <-> has_emoji text) /\
  ("NO hashtags" ∈ issues <-> N_of_ascii "#" ∈ text) /\
  ("Professional tone (avoid informal language)" ∈ issues <->
   any_keyword_in_lower lower informal_keywords text = true).
Proof.
  intros issues. subst issues.
  destruct (style_issues_list lower text w) as (-> & _).
  rewrite <- emoji_test_spec, <- hash_test_spec.
  destruct (any _), (contains (lit "#") text),
    (any_keyword_in_lower lower informal_keywords text);
    cbn [app]; split_and!; names_in_list.
Qed.

Lemma content_mention_missing lower (text : str) (w : World) :
  "Mentions @aiwithbrandon"
    ∈ missing_elements_of (returned (check_content_elements lower text) w)
  <-> ~ is_substring (lit "@aiwithbrandon") text.
Proof.
  destruct (content_missing_list lower text w) as (-> & _).
  rewrite <- contains_false.
  destruct (contains (lit "@aiwithbrandon") text), (Z.of_nat _ <? 4),
    (any_keyword_in_lower lower call_to_action_keywords text),
    (any_keyword_in_lower lower practical_application_keywords text),
    (any_keyword_in_lower lower enthusiasm_keywords text);
    cbn [app]; names_in_list.
Qed.

Lemma is_substring_trans (p s t : str) :
  is_substring p s -> is_substring s t -> is_substring p t.
Proof.
  intros (l1 & r1 & ->) (l2 & r2 & ->).
  exists (l2 ++ l1), (r1 ++ r2). by rewrite <- !(assoc_L (++)).
Qed.

Lemma is_substring_elem_of (c : N) (s t : str) :
  c ∈ s -> is_substring s t -> c ∈ t.
Proof. intros Hc (l & r & ->). set_solver. Qed.

(** X7. The tests made on the text as written are kept by embedding: if a
    post is part of a larger text, an emoji or hashtag issue of the post is
    an issue of the larger text, and a larger text that lacks the mention
    has no part that holds it. *)
Theorem raw_tests_survive_embedding
    (lower : str -> str) (text text' : str) (w : World) :
  is_substring text text' ->
  ("NO emojis" ∈ issues_of (returned (check_style_elements lower text) w) ->
   "NO emojis" ∈ issues_of (returned (check_style_elements lower text') w)) /\
  ("NO hashtags" ∈ issues_of (returned (check_style_elements lower text) w) ->
   "NO hashtags" ∈ issues_of (returned (check_style_elements lower text') w)) /\
  ("Mentions @aiwithbrandon"
     ∈ missing_elements_of (returned (check_content_elements lower text') w) ->
   "Mentions @aiwithbrandon"
     ∈ missing_elements_of (returned (check_content_elements lower text) w)).
Proof.
  intros Hsub.
  destruct (style_issue_raised lower text w) as (He & Hh & _).
  destruct (style_issue_raised lower text' w) as (He' & Hh' & _).
  rewrite He, He', Hh, Hh', !content_mention_missing. split_and!.
  - intros (c & Hc & Hemoji). exists c. eauto using is_substring_elem_of.
  - eauto using is_substring_elem_of.
  - intros Hno Hyes. eauto using is_substring_trans.
Qed.

Lemma raw_tests_survive_embedding_growth :
  is_substring (lit "#growth") (lit "more on #growth soon") /\
  "NO hashtags"
    ∈ issues_of (returned (check_style_elements ascii_lower
                             (lit "more on #growth soon")) w0).
Proof.
  assert (is_substring (lit "#growth") (lit "more on #growth soon")) as Hsub
    by (apply contains_spec; reflexivity).
  split; [exact Hsub|].
  apply (raw_tests_survive_embedding ascii_lower (lit "#growth")
           (lit "more on #growth soon") w0 Hsub).
  apply (bool_decide_unpack _). vm_compute. exact I.
Defined.

(** X8. Two texts with the same lower-casing get the same findings from
    every keyword test: the same missing content elements apart from the
    mention, and the same verdict on informal language. *)
Theorem same_lower_casing_same_keyword_findings
    (lower : str -> str) (text text' : str) (w : World) :
  lower text = lower text' ->
  (forall name, name <> "Mentions @aiwithbrandon" ->
     name ∈ missing_elements_of
              (returned (check_content_elements lower text) w) <->
     name ∈ missing_elements_of
              (returned (check_content_elements lower text') w)) /\
  ("Professional tone (avoid informal language)"
     ∈ issues_of (returned (check_style_elements lower text) w) <->
   "Professional tone (avoid informal language)"
     ∈ issues_of (returned (check_style_elements lower text') w)).
Proof.
  intros Hlow. split.
  - intros name Hname.
    destruct (content_missing_list lower text w) as (-> & _).
    destruct (content_missing_list lower text' w) as (-> & _).
    unfold any_keyword_in_lower. rewrite Hlow.
    destruct (contains (lit "@aiwithbrandon") text),
      (contains (lit "@aiwithbrandon") text'), (Z.of_nat _ <? 4),
      (any (List.map _ call_to_action_keywords)),
      (any (List.map _ practical_application_keywords)),
      (any (List.map _ enthusiasm_keywords));
      cbn [app]; names_in_list.
  - destruct (style_issue_raised lower text w) as (_ & _ & ->).
    destruct (style_issue_raised lower text' w) as (_ & _ & ->).
    by rewrite (keyword_checks_ignore_case lower _ text text' Hlow).
Qed.

Lemma same_lower_casing_same_keyword_findings_shouting :
  ascii_lower (lit "I LOVE USE CASES, LOL") = ascii_lower (lit "i love use cases, lol") /\
  ("Shows genuine enthusiasm"
     ∈ missing_elements_of (returned (check_content_elements ascii_lower
                                        (lit "I LOVE USE CASES, LOL")) w0) <->
   "Shows genuine enthusiasm"
     ∈ missing_elements_of (returned (check_content_elements ascii_lower
                                        (lit "i love use cases, lol")) w0)).
Proof.
  split; [reflexivity|].
  apply (same_lower_casing_same_keyword_findings ascii_lower
           (lit "I LOVE USE CASES, LOL") (lit "i love use cases, lol") w0);
    [reflexivity | discriminate].
Defined.

Lemma EMOJI_not_ascii : Forall (fun c => (128 <= c)%N) EMOJI.
Proof. apply (bool_decide_unpack _). by vm_compute. Qed.

(** X9. A post of plain ASCII never gets the 'NO emojis' issue. *)
Theorem ascii_post_has_no_emoji_issue
    (lower : str -> str) (text : str) (w : World) :
  is_ascii text ->
  "NO emojis" ∉ issues_of (returned (check_style_elements lower text) w).
Proof.
  intros Hascii.
  destruct (style_issue_raised lower text w) as (-> & _).
  intros (c & Hc & Hemoji).
  unfold is_ascii in Hascii. rewrite Forall_forall in Hascii.
  pose proof EMOJI_not_ascii as Hhigh. rewrite Forall_forall in Hhigh.
  specialize (Hascii c Hc). specialize (Hhigh c Hemoji). lia.
Qed.

Lemma ascii_post_has_no_emoji_issue_smiley :
  is_ascii (lit "well done :-)") /\
  "NO emojis"
    ∉ issues_of (returned (check_style_elements ascii_lower
                             (lit "well done :-)")) w0).
Proof.
  assert (is_ascii (lit "well done :-)")) as Hascii
    by (apply (bool_decide_unpack _); vm_compute; exact I).
  split; [exact Hascii|].
  exact (ascii_post_has_no_emoji_issue ascii_lower _ w0 Hascii).
Defined.

(** X10. The names on the lists come in the order of the source and
    without repeats: [missing_elements] is a sublist of the five content
    requirements, [issues] a sublist of the three style rules. *)
Theorem feedback_lists_keep_source_order
    (lower : str -> str) (text : str) (w : World) :
  missing_elements_of (returned (check_content_elements lower text) w)
    `sublist_of`
    [ "Mentions @aiwithbrandon"; "Lists at least 4 ADK capabilities";
      "Has a clear call-to-action"; "Includes practical applications";
      "Shows genuine enthusiasm" ] /\
  issues_of (returned (check_style_elements lower text) w)
    `sublist_of`
    [ "NO emojis"; "NO hashtags";
      "Professional tone (avoid informal language)" ].
Proof.
  destruct (content_missing_list lower text w) as (-> & _).
  destruct (style_issues_list lower text w) as (-> & _).
  split.
  - destruct (contains (lit "@aiwithbrandon") text), (Z.of_nat _ <? 4),
      (any_keyword_in_lower lower call_to_action_keywords text),
      (any_keyword_in_lower lower practical_application_keywords text),
      (any_keyword_in_lower lower enthusiasm_keywords text);
      cbn [app];
      repeat first [apply sublist_nil | apply sublist_skip | apply sublist_cons].
  - destruct (any _), (contains (lit "#") text),
      (any_keyword_in_lower lower informal_keywords text);
      cbn [app];
      repeat first [apply sublist_nil | apply sublist_skip | apply sublist_cons].
Qed.
